(** * ig_scraper.py: profile scraper over Instaloader, JSON on stdout

    A shallow embedding of [src/ig_scraper.py].  The script is glue around
    a scraping library: it reads one argument, asks the library for a
    profile, walks at most twelve posts, and prints one JSON value.  The
    library itself is not part of the program; its answers are inputs of
    the model: whether its import and the construction of the client
    complete (the [setup] argument of [main]), and what it answers to
    the lookup and to the post iterator (record [World]). *)

From Stdlib Require Import String Ascii List ZArith Bool Lia.
Import ListNotations.
Local Open Scope string_scope.
Local Open Scope Z_scope.
Local Open Scope list_scope.

(** ** Python strings

    A Python [str] is held as its UTF-8 encoding: a Rocq [string] is the
    sequence of the bytes, and a character (a code point) is one byte
    below 128, or a leading byte followed by its continuation bytes.
    "@" and the digits are single bytes that occur in no longer
    character, so stripping "@" and searching for "429" may work byte by
    byte; cutting a string to a number of characters may not. *)

(** [c in chars] for a one-character [c]. *)
Fixpoint char_in (c : ascii) (chars : string) : bool :=
  match chars with
  | EmptyString => false
  | String c' chars' => Ascii.eqb c c' || char_in c chars'
  end.

(** [s.lstrip(chars)]: drop leading characters while they belong to
    [chars]. *)
Fixpoint lstrip (chars s : string) : string :=
  match s with
  | EmptyString => EmptyString
  | String c s' => if char_in c chars then lstrip chars s' else s
  end.

(** [sub in s]: substring test. *)
Fixpoint str_in (sub s : string) : bool :=
  String.prefix sub s
  || match s with
     | EmptyString => false
     | String _ s' => str_in sub s'
     end.

(** A byte [10xxxxxx]: it continues the character begun before it. *)
Definition is_continuation (c : ascii) : bool :=
  match c with
  | Ascii _ _ _ _ _ _ b6 b7 => b7 && negb b6
  end.

(** [len(s)]: the number of characters, one per byte that begins one. *)
Fixpoint char_count (s : string) : nat :=
  match s with
  | EmptyString => O
  | String c s' =>
      if is_continuation c then char_count s' else S (char_count s')
  end.

(** The string begins in the middle of a character. *)
Definition begins_inside_character (s : string) : bool :=
  match s with
  | EmptyString => false
  | String c _ => is_continuation c
  end.

(** [s[:n]]: the first [n] characters, each with all its bytes. *)
Fixpoint slice_to (n : nat) (s : string) : string :=
  match s with
  | EmptyString => EmptyString
  | String c s' =>
      if is_continuation c then String c (slice_to n s')
      else
        match n with
        | O => EmptyString
        | S n' => String c (slice_to n' s')
        end
  end.

(** [n] copies of the character [c]. *)
Fixpoint str_repeat (c : ascii) (n : nat) : string :=
  match n with
  | O => EmptyString
  | S n' => String c (str_repeat c n')
  end.

(** ** JSON values and dictionaries *)

#[local] Unset Elimination Schemes.
Inductive json : Type :=
| JNull
| JBool (b : bool)
| JInt (z : Z)
| JStr (s : string)
| JArr (l : list json)
| JObj (d : list (string * json)).
#[local] Set Elimination Schemes.

(** A dict literal keeps the order in which its keys were written. *)
Definition dict : Type := list (string * json).

Fixpoint dict_get (k : string) (d : dict) : option json :=
  match d with
  | [] => None
  | (k', v) :: d' => if String.eqb k' k then Some v else dict_get k d'
  end.

(** [d[k] = v]: replaces in place, or adds the key at the end. *)
Fixpoint dict_set (k : string) (v : json) (d : dict) : dict :=
  match d with
  | [] => [(k, v)]
  | (k', v') :: d' =>
      if String.eqb k' k then (k, v) :: d' else (k', v') :: dict_set k v d'
  end.

Definition json_of_opt_str (o : option string) : json :=
  match o with
  | Some s => JStr s
  | None => JNull
  end.

(** ** Exceptions

    The handlers of [main] tell three cases apart: the library's
    [ProfileNotExistsException], its [ConnectionException] (with its
    subclasses), and every other instance of [Exception].  [TimeoutError],
    [KeyError] and [IndexError] belong to the third case. *)

Inductive exn_class : Type :=
| ProfileNotExistsException
| ConnectionException
| OtherException.

(** An exception value: its class and [str(e)]. *)
Record exn : Type := mk_exn { cls : exn_class; str : string }.

(** What propagates up the stack: an exception, or the [SystemExit] of
    [sys.exit(code)], which [except Exception] does not catch. *)
Inductive raised : Type :=
| Exc (e : exn)
| SystemExit (code : Z).

Inductive outcome (A : Type) : Type :=
| Return (a : A)
| Raise (r : raised).
Arguments Return {A} a.
Arguments Raise {A} r.

(** ** The collaborator: what the library hands back *)

(** [datetime], known here through its [isoformat()] text. *)
Record datetime : Type := { isoformat : string }.

Record Post : Type := {
  shortcode : string;
  caption : option string;
  url : string;
  likes : Z;
  comments : Z;
  video_view_count : option Z;
  is_video : bool;
  date_utc : option datetime
}.

(** [get_posts] is the sequence of answers of the post iterator: the
    [k]-th pull either yields a post ([inr]) or raises ([inl]); the end
    of the list is [StopIteration].  A post whose attributes cannot be
    read raises inside the same [try] as the pull, and is an [inl] at
    its position. *)
Record Profile : Type := {
  username : string;
  full_name : string;
  biography : string;
  followers : Z;
  followees : Z;
  mediacount : Z;
  is_private : bool;
  is_verified : bool;
  profile_pic_url : string;
  external_url : option string;
  get_posts : list (exn + Post)
}.

(** One run's inputs: the argument vector and the library's answer to
    [Profile.from_username] for each user name. *)
Record World : Type := {
  argv : list string;
  from_username : string -> exn + Profile
}.

(** ** Program state and the monad of statements

    An exception does not undo what was done before it: the text already
    printed, and the posts already appended to [result], stay.  So the
    state is threaded through failures as well. *)

Record Mem : Type := {
  stdout : list json;          (* values printed, oldest first *)
  lookups : list string;       (* user names passed to the library *)
  result : dict                (* the local variable [result] *)
}.

Definition init_mem : Mem := {| stdout := []; lookups := []; result := [] |}.

Definition Py (A : Type) : Type := Mem -> outcome A * Mem.

Definition ret {A} (a : A) : Py A := fun m => (Return a, m).

Definition bind {A B} (c : Py A) (k : A -> Py B) : Py B :=
  fun m =>
    match c m with
    | (Return a, m') => k a m'
    | (Raise r, m') => (Raise r, m')
    end.

Definition raise {A} (r : raised) : Py A := fun m => (Raise r, m).

Declare Scope py_scope.
Delimit Scope py_scope with py.
Notation "x <- c ;; k" := (bind c (fun x => k))
  (at level 61, c at next level, right associativity) : py_scope.
Notation "c ;; k" := (bind c (fun _ => k))
  (at level 61, right associativity) : py_scope.
Local Open Scope py_scope.

(** [try: body / except Exception as e: handler e].  [SystemExit] passes
    through. *)
Definition try_except {A} (body : Py A) (handler : exn -> Py A) : Py A :=
  fun m =>
    match body m with
    | (Raise (Exc e), m') => handler e m'
    | other => other
    end.

(** [print(json.dumps(v))] *)
Definition print (v : json) : Py unit :=
  fun m => (Return tt,
            {| stdout := stdout m ++ [v]; lookups := lookups m; result := result m |}).

(** [sys.exit(code)] *)
Definition sys_exit {A} (code : Z) : Py A := raise (SystemExit code).

(** [result = d] *)
Definition assign_result (d : dict) : Py unit :=
  fun m => (Return tt,
            {| stdout := stdout m; lookups := lookups m; result := d |}).

Definition read_result : Py dict := fun m => (Return (result m), m).

(** [result[k].append(x)]: the list under [k] grows in place. *)
Definition result_append (k : string) (x : json) : Py unit :=
  fun m =>
    match dict_get k (result m) with
    | Some (JArr l) =>
        (Return tt,
         {| stdout := stdout m; lookups := lookups m;
            result := dict_set k (JArr (l ++ [x])) (result m) |})
    | Some _ => (Raise (Exc (mk_exn OtherException "object has no attribute 'append'")), m)
    | None => (Raise (Exc (mk_exn OtherException ("'" ++ k ++ "'"))), m)
    end.

(** [Profile.from_username(L.context, username)] *)
Definition Profile_from_username (w : World) (name : string) : Py Profile :=
  fun m =>
    let m' := {| stdout := stdout m; lookups := lookups m ++ [name];
                 result := result m |} in
    match from_username w name with
    | inr p => (Return p, m')
    | inl e => (Raise (Exc e), m')
    end.

(** ** The watchdog *)

(** [timeout_handler]: what the alarm raises in the main thread.
    [TimeoutError] derives from [OSError], hence from [Exception]; when
    the alarm interrupts a library call, that call is seen to raise this
    value. *)
Definition timeout_handler : exn := mk_exn OtherException "Script timeout".

(** ** main *)

(** [x or default] on an optional string: [None] and the empty string are
    both falsy. *)
Definition or_str (x : option string) (default : string) : string :=
  match x with
  | Some EmptyString => default
  | Some s => s
  | None => default
  end.

(** [x or default] on an optional integer: [None] and [0] are falsy. *)
Definition or_int (x : option Z) (default : Z) : Z :=
  match x with
  | Some 0 => default
  | Some z => z
  | None => default
  end.

(** The dict built for one post (lines 67-77). *)
Definition post_data (post : Post) : json :=
  JObj [ ("id", JStr (shortcode post));
         ("url", JStr ("https://www.instagram.com/p/" ++ shortcode post ++ "/"));
         ("title", JStr (slice_to 100 (or_str (caption post) "Post")));
         ("thumbnail", JStr (url post));
         ("likes", JInt (likes post));
         ("comments", JInt (comments post));
         ("views", JInt (or_int (video_view_count post) 0));
         ("is_video", JBool (is_video post));
         ("upload_date",
           match date_utc post with
           | Some d => JStr (isoformat d)
           | None => JNull
           end) ].

(** The [for post in profile.get_posts()] loop (lines 64-79), with the
    local [count]. *)
Fixpoint for_posts (it : list (exn + Post)) (count : Z) : Py unit :=
  match it with
  | [] => ret tt
  | inl e :: _ => raise (Exc e)
  | inr post :: it' =>
      if count >=? 12 then ret tt
      else
        result_append "posts" (post_data post) ;;
        for_posts it' (count + 1)
  end.

(** The dict of lines 46-58. *)
Definition profile_dict (profile : Profile) : dict :=
  [ ("username", JStr (username profile));
    ("full_name", JStr (full_name profile));
    ("biography", JStr (biography profile));
    ("followers", JInt (followers profile));
    ("following", JInt (followees profile));
    ("posts_count", JInt (mediacount profile));
    ("is_private", JBool (is_private profile));
    ("is_verified", JBool (is_verified profile));
    ("profile_pic_url", JStr (profile_pic_url profile));
    ("external_url", json_of_opt_str (external_url profile));
    ("posts", JArr []) ].

Definition usage_error : json :=
  JObj [("error", JStr "Usage: ig_scraper.py <username>")].

Definition not_exists_error (name : string) : json :=
  JObj [("error", JStr ("Profile '" ++ name ++ "' does not exist"))].

Definition rate_limited_error : json :=
  JObj [("error", JStr "rate_limited");
        ("message", JStr "Instagram rate limit (429). Try again later.")].

Definition connection_error (err_str : string) : json :=
  JObj [("error", JStr ("Connection error: " ++ err_str))].

Definition other_error (err_str : string) : json :=
  JObj [("error", JStr err_str)].

(** The body of the outer [try] (lines 44-83). *)
Definition try_body (w : World) (name : string) : Py unit :=
  profile <- Profile_from_username w name ;;
  assign_result (profile_dict profile) ;;
  (if negb (is_private profile)
   then try_except (for_posts (get_posts profile) 0) (fun _ => ret tt)
   else ret tt) ;;
  r <- read_result ;;
  print (JObj r).

(** The three [except] clauses (lines 85-97), tried in order. *)
Definition handlers (name : string) (e : exn) : Py unit :=
  match cls e with
  | ProfileNotExistsException =>
      print (not_exists_error name) ;; sys_exit 1
  | ConnectionException =>
      let err_str := str e in
      (if str_in "429" err_str
       then print rate_limited_error
       else print (connection_error err_str)) ;;
      sys_exit 1
  | OtherException =>
      print (other_error (str e)) ;; sys_exit 1
  end.

(** Lines 24-41: the two imports, the [Instaloader(...)] constructor
    and the assignment to [_rate_controller].  They run before the
    [try], so what they raise is caught by nothing.  [setup] is what
    they do in this run: [None] when they complete, [Some e] when one of
    them raises [e] (the module is missing, the constructor refuses its
    arguments, or the watchdog fires there). *)
Definition load_library (setup : option exn) : Py unit :=
  match setup with
  | None => ret tt
  | Some e => raise (Exc e)
  end.

Definition main (setup : option exn) (w : World) : Py unit :=
  if Z.of_nat (length (argv w)) <? 2 then
    print usage_error ;; sys_exit 1
  else
    match nth_error (argv w) 1 with
    | None => raise (Exc (mk_exn OtherException "list index out of range"))
    | Some arg =>
        let name := lstrip "@" arg in
        load_library setup ;;
        try_except (try_body w name) (handlers name)
    end.

(** Exit status of the process: 0 when [main] returns, the code of
    [sys.exit], 1 for an exception nobody caught. *)
Definition exit_status (o : outcome unit) : Z :=
  match o with
  | Return _ => 0
  | Raise (SystemExit code) => code
  | Raise (Exc _) => 1
  end.

(** A whole run: final state and exit status. *)
Definition run_with (setup : option exn) (w : World) : Mem * Z :=
  let (o, m) := main setup w init_mem in (m, exit_status o).


(** A run in which lines 24-41 complete. *)
Definition run (w : World) : Mem * Z := run_with None w.

Definition printed (w : World) : list json := stdout (fst (run w)).
Definition status (w : World) : Z := snd (run w).
Definition looked_up (w : World) : list string := lookups (fst (run w)).

(** The ["posts"] array of a printed value, when it has one. *)
Definition posts_of (v : json) : option (list json) :=
  match v with
  | JObj d =>
      match dict_get "posts" d with
      | Some (JArr l) => Some l
      | _ => None
      end
  | _ => None
  end.

(** The field [k] of a printed value. *)
Definition field (k : string) (v : json) : option json :=
  match v with
  | JObj d => dict_get k d
  | _ => None
  end.

(** ** Reading the iterator *)

(** The posts the iterator yields before it ends or raises. *)
Fixpoint yielded (it : list (exn + Post)) : list Post :=
  match it with
  | inr post :: it' => post :: yielded it'
  | _ => []
  end.

(** The answer the iterator gives to its [k]-th pull is an exception. *)
Definition raises_at (it : list (exn + Post)) (k : nat) (e : exn) : Prop :=
  nth_error it k = Some (inl e) /\ length (yielded it) = k.

(** The title the source computes for a post, case by case. *)
Definition title_of (post : Post) : string :=
  match caption post with
  | None => "Post"
  | Some EmptyString => "Post"
  | Some c => slice_to 100 c
  end.

(** ** Sample inputs *)

Definition sample_post (code : string) (cap : option string) : Post :=
  {| shortcode := code; caption := cap; url := "https://cdn.example/" ++ code;
     likes := 7; comments := 2; video_view_count := None; is_video := false;
     date_utc := Some {| isoformat := "2024-01-02T03:04:05" |} |}.

Definition sample_profile (private : bool) (it : list (exn + Post)) : Profile :=
  {| username := "name"; full_name := "A Name"; biography := "bio";
     followers := 10; followees := 20; mediacount := 30;
     is_private := private; is_verified := false;
     profile_pic_url := "https://cdn.example/pic"; external_url := None;
     get_posts := it |}.

(** A world in which every lookup has the same answer. *)
Definition world (args : list string) (answer : exn + Profile) : World :=
  {| argv := args; from_username := fun _ => answer |}.

Definition many_posts (n : nat) : list (exn + Post) :=
  map (fun _ => inr (sample_post "abc" (Some "hello"))) (seq 0 n).

(** ** Definitions used to state the properties *)

(** The posts that end up in the output: the first twelve the iterator
    yields before it ends or raises. *)
Definition kept (it : list (exn + Post)) : list json :=
  map post_data (firstn 12 (yielded it)).

Definition with_result (m : Mem) (d : dict) : Mem :=
  {| stdout := stdout m; lookups := lookups m; result := d |}.

(** The posts array of the success object. *)
Definition shown_posts (p : Profile) : list json :=
  if is_private p then [] else kept (get_posts p).

Definition success_object (p : Profile) : json :=
  JObj (dict_set "posts" (JArr (shown_posts p)) (profile_dict p)).

(** The object each [except] clause prints. *)
Definition error_object (name : string) (e : exn) : json :=
  match cls e with
  | ProfileNotExistsException => not_exists_error name
  | ConnectionException =>
      if str_in "429" (str e) then rate_limited_error
      else connection_error (str e)
  | OtherException => other_error (str e)
  end.

(** The run raises [e] somewhere: in the lookup, or at a pull of the
    post iterator that the loop reaches (pulls 0 to 12). *)
Definition run_raises (w : World) (e : exn) : Prop :=
  exists prog arg rest,
    argv w = prog :: arg :: rest
    /\ (from_username w (lstrip "@" arg) = inl e
        \/ exists p k,
             from_username w (lstrip "@" arg) = inr p
             /\ is_private p = false
             /\ raises_at (get_posts p) k e
             /\ (k <= 12)%nat).

Definition post_a : Post := sample_post "abc" (Some "hello").

Definition boom : exn := mk_exn OtherException "boom".

Definition profile_c1 : Profile := sample_profile false [inr post_a; inl boom].

Definition world_c1 : World := world ["ig_scraper.py"; "name"] (inr profile_c1).

Definition profile_c3 : Profile := sample_profile false (many_posts 15).

Definition world_c3 : World := world ["ig_scraper.py"; "@name"] (inr profile_c3).

Definition too_many_requests : exn :=
  mk_exn ConnectionException "429 Too Many Requests".

Definition profile_c4 : Profile :=
  sample_profile false [inl too_many_requests].

Definition world_c4 : World := world ["ig_scraper.py"; "name"] (inr profile_c4).

Definition world_c4_lookup : World :=
  world ["ig_scraper.py"; "name"] (inl too_many_requests).

Definition world_c5 : World :=
  world ["ig_scraper.py"; "name"] (inl timeout_handler).


Definition profile_c7 : Profile := sample_profile true (many_posts 5).

Definition world_c7 : World := world ["ig_scraper.py"; "name"] (inr profile_c7).

Definition post_c9 : Post := sample_post "abc" (Some "").

Definition profile_c9 : Profile := sample_profile false [inr post_c9].

Definition world_c9 : World := world ["ig_scraper.py"; "name"] (inr profile_c9).

Definition post_long : Post :=
  sample_post "xyz" (Some (str_repeat "a"%char 150)).

Definition profile_long : Profile := sample_profile false [inr post_long].

Definition world_long : World :=
  world ["ig_scraper.py"; "name"] (inr profile_long).

(** Inputs for the further properties. *)

Definition ghost_error : exn :=
  mk_exn ProfileNotExistsException "429: no such profile".

Definition world_ghost : World :=
  world ["ig_scraper.py"; "@ghost"] (inl ghost_error).

Definition profile_two : Profile :=
  sample_profile false [inr post_a; inr post_long].

Definition world_two : World := world ["ig_scraper.py"; "name"] (inr profile_two).


(** The euro sign, three bytes, and a caption of forty of them. *)
Definition euro : string :=
  String "226"%char (String "130"%char (String "172"%char EmptyString)).

Fixpoint euros (n : nat) : string :=
  match n with
  | O => EmptyString
  | S n' => (euro ++ euros n')%string
  end.

Definition post_euro : Post := sample_post "eur" (Some (euros 40)).

Definition profile_euro : Profile := sample_profile false [inr post_euro].

Definition world_euro : World :=
  world ["ig_scraper.py"; "name"] (inr profile_euro).

Definition twelve_posts : list Post :=
  map (fun _ => sample_post "abc" (Some "hello")) (seq 0 12).

(** * Facts about the string functions *)

Section Strings.

Local Open Scope string_scope.

Lemma prefix_app (sub s : string) :
  String.prefix sub s = true <-> exists b, s = sub ++ b.
Proof.
  revert s. induction sub as [|c sub IH]; intros [|c' s]; simpl.
  - split; [intros _; now exists "" | reflexivity].
  - split; [intros _; now exists (String c' s) | reflexivity].
  - split; [discriminate | intros [b Hb]; discriminate].
  - destruct (ascii_dec c c') as [->|Hne].
    + rewrite IH. split; intros [b Hb]; exists b.
      * now rewrite Hb.
      * now inversion Hb.
    + split; [discriminate | intros [b Hb]; inversion Hb; congruence].
Qed.

Lemma str_in_spec (sub s : string) :
  str_in sub s = true <-> exists a b, s = a ++ sub ++ b.
Proof.
  induction s as [|c s IH]; cbn [str_in].
  - rewrite orb_false_r, prefix_app. split.
    + intros [b Hb]. exists "", b. exact Hb.
    + intros [a [b Hab]]. destruct a; simpl in Hab; [now exists b|discriminate].
  - rewrite orb_true_iff, prefix_app, IH. split.
    + intros [[b Hb] | [a [b Hab]]].
      * exists "", b. exact Hb.
      * exists (String c a), b. simpl. now rewrite Hab.
    + intros [a [b Hab]]. destruct a as [|c' a]; simpl in Hab.
      * left. now exists b.
      * right. exists a, b. now inversion Hab.
Qed.

Lemma lstrip_cons_in (chars : string) (c : ascii) (s : string) :
  char_in c chars = true -> lstrip chars (String c s) = lstrip chars s.
Proof. intros H. simpl. now rewrite H. Qed.

Lemma lstrip_at (s : string) : lstrip "@" ("@" ++ s) = lstrip "@" s.
Proof. reflexivity. Qed.

(** [lstrip] splits its argument into a run of stripped characters and
    a rest that does not begin with one. *)
Lemma lstrip_split (s : string) :
  exists n, s = str_repeat "@"%char n ++ lstrip "@" s.
Proof.
  induction s as [|c s [n IH]].
  - exists 0%nat. reflexivity.
  - simpl. rewrite orb_false_r. destruct (Ascii.eqb_spec c "@"%char) as [->|Hne].
    + exists (S n). simpl. now rewrite <- IH.
    + exists 0%nat. reflexivity.
Qed.

Lemma lstrip_head (s : string) (c : ascii) (t : string) :
  lstrip "@" s = String c t -> c <> "@"%char.
Proof.
  induction s as [|c' s IH]; simpl; [discriminate|].
  rewrite orb_false_r. destruct (Ascii.eqb_spec c' "@"%char) as [->|Hne].
  - exact IH.
  - intros H. inversion H. now subst.
Qed.

Lemma lstrip_fixed (c : ascii) (s : string) :
  c <> "@"%char -> lstrip "@" (String c s) = String c s.
Proof.
  intros H. simpl. rewrite orb_false_r.
  destruct (Ascii.eqb_spec c "@"%char); [contradiction | reflexivity].
Qed.

Lemma slice_to_count (n : nat) (s : string) :
  char_count (slice_to n s) = Nat.min n (char_count s).
Proof.
  revert n. induction s as [|c s IH]; intros n; cbn [slice_to char_count].
  - now rewrite Nat.min_0_r.
  - destruct (is_continuation c) eqn:E.
    + cbn [char_count]. rewrite E. apply IH.
    + destruct n as [|n]; [reflexivity|].
      cbn [char_count]. rewrite E, IH. reflexivity.
Qed.

(** The cut falls between two characters. *)
Lemma slice_to_prefix (n : nat) (s : string) :
  exists rest, s = slice_to n s ++ rest /\ begins_inside_character rest = false.
Proof.
  revert n. induction s as [|c s IH]; intros n; cbn [slice_to].
  - now exists "".
  - destruct (is_continuation c) eqn:E.
    + destruct (IH n) as [r [Hr Hb]]. exists r. split; [|exact Hb].
      cbn. now rewrite <- Hr.
    + destruct n as [|n].
      * exists (String c s). split; [reflexivity | exact E].
      * destruct (IH n) as [r [Hr Hb]]. exists r. split; [|exact Hb].
        cbn. now rewrite <- Hr.
Qed.

Lemma slice_to_all (n : nat) (s : string) :
  (char_count s <= n)%nat -> slice_to n s = s.
Proof.
  revert n. induction s as [|c s IH]; intros n H; cbn [slice_to]; [reflexivity|].
  cbn [char_count] in H. destruct (is_continuation c).
  - now rewrite IH.
  - destruct n as [|n]; [lia|]. rewrite IH; [reflexivity | lia].
Qed.

Lemma slice_to_nonempty (n : nat) (c : ascii) (s : string) :
  slice_to (S n) (String c s) <> "".
Proof. cbn [slice_to]. destruct (is_continuation c); discriminate. Qed.

Lemma title_of_eq (post : Post) :
  title_of post = slice_to 100 (or_str (caption post) "Post").
Proof.
  unfold title_of, or_str. destruct (caption post) as [[|c s]|]; reflexivity.
Qed.

End Strings.

(** * Facts about dictionaries *)

Section Dicts.

Lemma dict_get_set_same (k : string) (v : json) (d : dict) :
  dict_get k (dict_set k v d) = Some v.
Proof.
  induction d as [|[k' v'] d IH]; simpl.
  - now rewrite String.eqb_refl.
  - destruct (String.eqb k' k) eqn:E; simpl.
    + now rewrite String.eqb_refl.
    + now rewrite E.
Qed.

Lemma dict_set_set (k : string) (v1 v2 : json) (d : dict) :
  dict_set k v2 (dict_set k v1 d) = dict_set k v2 d.
Proof.
  induction d as [|[k' v'] d IH]; simpl.
  - now rewrite String.eqb_refl.
  - destruct (String.eqb k' k) eqn:E; simpl.
    + now rewrite String.eqb_refl.
    + now rewrite E, IH.
Qed.

Lemma dict_set_get (k : string) (v : json) (d : dict) :
  dict_get k d = Some v -> dict_set k v d = d.
Proof.
  induction d as [|[k' v'] d IH]; simpl; [discriminate|].
  destruct (String.eqb_spec k' k) as [->|Hne].
  - intros H. now inversion H.
  - intros H. now rewrite IH.
Qed.

End Dicts.

(** * The loop over the posts *)

Section Loop.

Lemma with_result_same (m : Mem) : with_result m (result m) = m.
Proof. now destruct m. Qed.

(** Invariant of the loop: with [count] posts already stored in [l],
    the loop adds the next [12 - count] yielded posts and touches
    nothing else; it never exits the process. *)
Lemma for_posts_spec (it : list (exn + Post)) :
  forall (count : Z) (m : Mem) (l : list json),
    0 <= count ->
    dict_get "posts" (result m) = Some (JArr l) ->
    exists o,
      for_posts it count m =
        (o, with_result m
              (dict_set "posts"
                 (JArr (l ++ map post_data
                               (firstn (Z.to_nat (12 - count)) (yielded it))))
                 (result m)))
      /\ forall code, o <> Raise (SystemExit code).
Proof.
  induction it as [|[e|post] it IH]; intros count m l Hc Hl.
  - exists (Return tt). cbn [for_posts yielded map].
    rewrite firstn_nil, app_nil_r, (dict_set_get _ _ _ Hl), with_result_same.
    split; [reflexivity | discriminate].
  - exists (Raise (Exc e)). cbn [for_posts yielded map].
    rewrite firstn_nil, app_nil_r, (dict_set_get _ _ _ Hl), with_result_same.
    split; [reflexivity | discriminate].
  - cbn [for_posts yielded]. rewrite Z.geb_leb.
    destruct (Z.leb_spec 12 count) as [Hge|Hlt].
    + exists (Return tt).
      replace (Z.to_nat (12 - count)) with 0%nat by lia.
      cbn [firstn map].
      rewrite app_nil_r, (dict_set_get _ _ _ Hl), with_result_same.
      split; [reflexivity | discriminate].
    + unfold bind, result_append. rewrite Hl.
      set (m1 := {| stdout := stdout m; lookups := lookups m;
                    result := dict_set "posts" (JArr (l ++ [post_data post]))
                                (result m) |}).
      destruct (IH (count + 1) m1 (l ++ [post_data post])) as [o [Ho Hexit]].
      * lia.
      * apply dict_get_set_same.
      * exists o. split; [|exact Hexit].
        rewrite Ho. unfold with_result, m1. cbn [stdout lookups result].
        rewrite dict_set_set.
        replace (Z.to_nat (12 - count)) with (S (Z.to_nat (12 - (count + 1))))
          by lia.
        cbn [firstn map]. now rewrite <- app_assoc.
Qed.

Lemma kept_length (it : list (exn + Post)) : (length (kept it) <= 12)%nat.
Proof.
  unfold kept. rewrite length_map, length_firstn. apply Nat.le_min_l.
Qed.

Lemma yielded_app_raise (ps : list Post) (e : exn) (tl : list (exn + Post)) :
  yielded (map inr ps ++ inl e :: tl) = ps.
Proof. induction ps as [|p ps IH]; simpl; [reflexivity | now rewrite IH]. Qed.

Lemma raises_at_split (it : list (exn + Post)) (k : nat) (e : exn) :
  raises_at it k e ->
  exists tl, it = map inr (yielded it) ++ inl e :: tl.
Proof.
  revert k. induction it as [|[e'|p] it IH]; intros k [Hn Hl].
  - destruct k; discriminate.
  - simpl in Hl. subst k. simpl in Hn. inversion Hn. now exists it.
  - simpl in Hl. destruct k as [|k]; [discriminate|].
    simpl in Hn. destruct (IH k) as [tl Htl].
    + split; [exact Hn | now inversion Hl].
    + exists tl. simpl. now rewrite <- Htl.
Qed.

End Loop.

(** * What a run does, path by path *)

Section Runs.

Lemma load_library_completes {A} (k : unit -> Py A) (m : Mem) :
  bind (load_library None) k m = k tt m.
Proof. reflexivity. Qed.


Lemma run_usage (w : World) :
  (length (argv w) < 2)%nat ->
  run w = ({| stdout := [usage_error]; lookups := []; result := [] |}, 1).
Proof.
  intros H. unfold run, run_with, main.
  destruct (Z.ltb_spec (Z.of_nat (length (argv w))) 2) as [_|Hge]; [|lia].
  reflexivity.
Qed.

Lemma run_success (w : World) (prog arg : string) (rest : list string)
    (p : Profile) :
  argv w = prog :: arg :: rest ->
  from_username w (lstrip "@" arg) = inr p ->
  run w = ({| stdout := [success_object p];
              lookups := [lstrip "@" arg];
              result := dict_set "posts" (JArr (shown_posts p)) (profile_dict p) |},
           0).
Proof.
  intros Hargv Hp. unfold run, run_with, main. rewrite Hargv.
  cbn [length nth_error].
  destruct (Z.ltb_spec (Z.of_nat (S (S (length rest)))) 2) as [Hlt|_]; [lia|].
  rewrite load_library_completes.
  unfold try_except at 1, try_body, bind at 1, Profile_from_username.
  rewrite Hp. cbn [stdout lookups result init_mem app].
  unfold bind at 1, assign_result. cbn [stdout lookups result].
  unfold success_object, shown_posts.
  destruct (is_private p) eqn:Hpriv; cbn [negb].
  - reflexivity.
  - unfold bind at 1, try_except.
    set (m0 := {| stdout := []; lookups := [lstrip "@" arg];
                  result := profile_dict p |}).
    destruct (for_posts_spec (get_posts p) 0 m0 []) as [o [Ho Hexit]];
      [lia | reflexivity |].
    rewrite Ho. cbn [app Z.sub Z.to_nat Pos.to_nat] in *.
    change (Z.to_nat (12 - 0)) with 12%nat.
    fold (kept (get_posts p)).
    destruct o as [[]|[e|code]]; [reflexivity | reflexivity |].
    now destruct (Hexit code).
Qed.

Lemma run_failure (w : World) (prog arg : string) (rest : list string)
    (e : exn) :
  argv w = prog :: arg :: rest ->
  from_username w (lstrip "@" arg) = inl e ->
  run w = ({| stdout := [error_object (lstrip "@" arg) e];
              lookups := [lstrip "@" arg];
              result := [] |},
           1).
Proof.
  intros Hargv He. unfold run, run_with, main. rewrite Hargv.
  cbn [length nth_error].
  destruct (Z.ltb_spec (Z.of_nat (S (S (length rest)))) 2) as [Hlt|_]; [lia|].
  rewrite load_library_completes.
  unfold try_except at 1, try_body, bind at 1, Profile_from_username.
  rewrite He. cbn [stdout lookups result init_mem app].
  unfold handlers, error_object.
  destruct (cls e); [reflexivity | | reflexivity].
  destruct (str_in "429" (str e)); reflexivity.
Qed.

(** Every run takes one of the three paths. *)
Lemma run_cases (w : World) :
  (length (argv w) < 2)%nat
  \/ exists prog arg rest,
       argv w = prog :: arg :: rest
       /\ ((exists p, from_username w (lstrip "@" arg) = inr p)
           \/ (exists e, from_username w (lstrip "@" arg) = inl e)).
Proof.
  destruct (argv w) as [|prog [|arg rest]]; simpl; [left; lia | left; lia |].
  right. exists prog, arg, rest. split; [reflexivity|].
  destruct (from_username w (lstrip "@" arg)) as [e|p]; eauto.
Qed.



End Runs.

(** * Properties of the program *)

Section Claims.

Local Open Scope string_scope.

Lemma nth_error_yielded (it : list (exn + Post)) (i : nat) (post : Post) :
  nth_error (yielded it) i = Some post -> nth_error it i = Some (inr post).
Proof.
  revert i. induction it as [|[e|q] it IH]; intros i H.
  - destruct i; discriminate.
  - destruct i; discriminate.
  - destruct i as [|i]; simpl in *; [congruence | now apply IH].
Qed.

Lemma nth_error_firstn_some {A} (n i : nat) (l : list A) (a : A) :
  nth_error (firstn n l) i = Some a -> nth_error l i = Some a.
Proof.
  revert i l. induction n as [|n IH]; intros i l H.
  - destruct i; discriminate.
  - destruct l as [|b l]; [destruct i; discriminate|].
    destruct i as [|i]; simpl in *; [exact H | now apply IH].
Qed.

Lemma posts_of_success (p : Profile) :
  posts_of (success_object p) = Some (shown_posts p).
Proof. reflexivity. Qed.

Lemma posts_of_error (name : string) (e : exn) :
  posts_of (error_object name e) = None.
Proof.
  unfold error_object. destruct (cls e); try reflexivity.
  destruct (str_in "429" (str e)); reflexivity.
Qed.

Lemma printed_success (w : World) (prog arg : string) (rest : list string)
    (p : Profile) :
  argv w = prog :: arg :: rest ->
  from_username w (lstrip "@" arg) = inr p ->
  printed w = [success_object p] /\ status w = 0
  /\ looked_up w = [lstrip "@" arg].
Proof.
  intros Ha Hp. unfold printed, status, looked_up.
  now rewrite (run_success w prog arg rest p Ha Hp).
Qed.

Lemma printed_failure (w : World) (prog arg : string) (rest : list string)
    (e : exn) :
  argv w = prog :: arg :: rest ->
  from_username w (lstrip "@" arg) = inl e ->
  printed w = [error_object (lstrip "@" arg) e] /\ status w = 1
  /\ looked_up w = [lstrip "@" arg].
Proof.
  intros Ha He. unfold printed, status, looked_up.
  now rewrite (run_failure w prog arg rest e Ha He).
Qed.

(** X12: the watchdog firing inside the lookup is reported like any other
    failure of the lookup. *)
Lemma timeout_in_lookup (w : World) (prog arg : string) (rest : list string) :
  argv w = prog :: arg :: rest ->
  from_username w (lstrip "@" arg) = inl timeout_handler ->
  printed w = [JObj [("error", JStr "Script timeout")]] /\ status w = 1.
Proof.
  intros Ha He. destruct (printed_failure w prog arg rest _ Ha He) as [H1 [H2 _]].
  now rewrite H1, H2.
Qed.

(** ** C1 *)

(** C1, as stated, fails: the lookup succeeds, the second pull of the
    iterator raises, and the printed posts array still holds the post
    that was appended before the exception; it is not empty. *)
Lemma C1_counterexample :
  from_username world_c1 (lstrip "@" "name") = inr profile_c1
  /\ raises_at (get_posts profile_c1) 1 boom
  /\ map posts_of (printed world_c1) = [Some [post_data post_a]]
  /\ map posts_of (printed world_c1) <> [Some []].
Proof.
  split; [reflexivity|]. split; [split; reflexivity|].
  split; [reflexivity | discriminate].
Qed.

(** C1 (amended): when the lookup succeeds on a public profile and the
    post iteration raises at its [k]-th pull, with the loop still
    running ([k <= 12]), the exception is swallowed, the run exits with
    status 0, and the printed posts array holds the summaries of exactly
    the [k] posts yielded before the exception, in order.  It is empty
    when the very first pull raises. *)
Theorem C1_posts_before_exception_are_kept
    (w : World) (prog arg : string) (rest : list string) (p : Profile)
    (k : nat) (e : exn) :
  argv w = prog :: arg :: rest ->
  from_username w (lstrip "@" arg) = inr p ->
  is_private p = false ->
  raises_at (get_posts p) k e ->
  (k <= 12)%nat ->
  map posts_of (printed w) = [Some (map post_data (yielded (get_posts p)))]
  /\ length (yielded (get_posts p)) = k
  /\ status w = 0.
Proof.
  intros Ha Hp Hpub [Hn Hl] Hk.
  destruct (printed_success w prog arg rest p Ha Hp) as [Hout [Hst _]].
  rewrite Hout, Hst. cbn [map]. rewrite posts_of_success.
  unfold shown_posts, kept. rewrite Hpub.
  rewrite firstn_all2 by lia. auto.
Qed.

Lemma C1_posts_before_exception_are_kept_witness :
  argv world_c1 = ["ig_scraper.py"; "name"]
  /\ map posts_of (printed world_c1) = [Some [post_data post_a]]
  /\ status world_c1 = 0.
Proof.
  split; [reflexivity|].
  destruct (C1_posts_before_exception_are_kept
              world_c1 "ig_scraper.py" "name" [] profile_c1 1 boom)
    as [H1 [_ H3]].
  - reflexivity.
  - reflexivity.
  - reflexivity.
  - split; reflexivity.
  - apply le_S, le_S, le_S, le_S, le_S, le_S, le_S, le_S, le_S, le_S, le_S, le_n.
  - split; [exact H1 | exact H3].
Defined.

(** ** C2 *)




(** ** C3 *)

(** C3: whatever is printed, a posts array in it has at most twelve
    elements, however many posts the iterator would yield. *)
Theorem C3_at_most_twelve_posts (w : World) (v : json) (l : list json) :
  In v (printed w) ->
  posts_of v = Some l ->
  (length l <= 12)%nat.
Proof.
  intros Hin Hposts.
  destruct (run_cases w) as [Hlt | (prog & arg & rest & Ha & [[p Hp] | [e He]])].
  - unfold printed in Hin. rewrite (run_usage w Hlt) in Hin.
    destruct Hin as [<-|[]]. discriminate.
  - destruct (printed_success w prog arg rest p Ha Hp) as [Hout _].
    rewrite Hout in Hin. destruct Hin as [<-|[]].
    rewrite posts_of_success in Hposts. inversion Hposts; subst l.
    unfold shown_posts. destruct (is_private p).
    + apply Nat.le_0_l.
    + apply kept_length.
  - destruct (printed_failure w prog arg rest e Ha He) as [Hout _].
    rewrite Hout in Hin. destruct Hin as [<-|[]].
    rewrite posts_of_error in Hposts. discriminate.
Qed.

Lemma C3_at_most_twelve_posts_witness :
  length (get_posts profile_c3) = 15%nat
  /\ In (success_object profile_c3) (printed world_c3)
  /\ (length (shown_posts profile_c3) <= 12)%nat.
Proof.
  assert (Hout : printed world_c3 = [success_object profile_c3]).
  { apply (printed_success world_c3 "ig_scraper.py" "@name" [] profile_c3);
      reflexivity. }
  assert (Hin : In (success_object profile_c3) (printed world_c3)).
  { rewrite Hout. apply in_eq. }
  split; [reflexivity|]. split; [exact Hin|].
  exact (C3_at_most_twelve_posts world_c3 (success_object profile_c3)
           (shown_posts profile_c3) Hin (posts_of_success profile_c3)).
Defined.

(** ** C4 *)

(** C4, as stated of every run that raises the connection error, fails:
    raised by the post iterator, a connection error whose message
    contains "429" is swallowed; the run prints the profile object and
    ends with status 0, not the rate-limited object and status 1. *)
Lemma C4_counterexample :
  run_raises world_c4 too_many_requests
  /\ cls too_many_requests = ConnectionException
  /\ str_in "429" (str too_many_requests) = true
  /\ printed world_c4 = [success_object profile_c4]
  /\ printed world_c4 <> [rate_limited_error]
  /\ status world_c4 = 0.
Proof.
  split.
  { exists "ig_scraper.py", "name", []. split; [reflexivity|].
    right. exists profile_c4, 0%nat.
    repeat split; try reflexivity. apply Nat.le_0_l. }
  repeat split; try reflexivity. discriminate.
Qed.

(** C4 (amended): when the profile lookup raises the library's
    connection error, the run exits with status 1 and prints one object:
    the rate-limited object (error code "rate_limited" and a message
    field) if the exception's message contains "429", and otherwise an
    object whose error field is "Connection error: " followed by the
    message, unchanged. *)
Theorem C4_connection_error_in_lookup
    (w : World) (prog arg : string) (rest : list string) (e : exn) :
  argv w = prog :: arg :: rest ->
  from_username w (lstrip "@" arg) = inl e ->
  cls e = ConnectionException ->
  status w = 1
  /\ (((exists a b, str e = a ++ "429" ++ b)
       /\ printed w =
            [JObj [("error", JStr "rate_limited");
                   ("message",
                     JStr "Instagram rate limit (429). Try again later.")]])
      \/ (~ (exists a b, str e = a ++ "429" ++ b)
          /\ printed w =
               [JObj [("error", JStr ("Connection error: " ++ str e))]])).
Proof.
  intros Ha He Hc.
  destruct (printed_failure w prog arg rest e Ha He) as [Hout [Hst _]].
  split; [exact Hst|].
  rewrite Hout. unfold error_object. rewrite Hc.
  destruct (str_in "429" (str e)) eqn:E.
  - left. split; [now apply str_in_spec | reflexivity].
  - right. split; [|reflexivity].
    intros H. apply str_in_spec in H. congruence.
Qed.

Lemma C4_connection_error_in_lookup_witness :
  from_username world_c4_lookup (lstrip "@" "name") = inl too_many_requests
  /\ status world_c4_lookup = 1
  /\ printed world_c4_lookup = [rate_limited_error].
Proof.
  split; [reflexivity|].
  destruct (C4_connection_error_in_lookup
              world_c4_lookup "ig_scraper.py" "name" [] too_many_requests)
    as [Hst _]; [reflexivity | reflexivity | reflexivity |].
  split; [exact Hst | reflexivity].
Defined.

(** ** C5 *)

(** C5: when the profile lookup raises an exception that is neither
    profile-not-found nor a connection error, the run prints one object
    whose error field is the exception's message, and exits with
    status 1. *)
Theorem C5_other_exception_in_lookup
    (w : World) (prog arg : string) (rest : list string) (e : exn) :
  argv w = prog :: arg :: rest ->
  from_username w (lstrip "@" arg) = inl e ->
  cls e = OtherException ->
  printed w = [JObj [("error", JStr (str e))]] /\ status w = 1.
Proof.
  intros Ha He Hc.
  destruct (printed_failure w prog arg rest e Ha He) as [Hout [Hst _]].
  rewrite Hout, Hst. unfold error_object. now rewrite Hc.
Qed.

Lemma C5_other_exception_in_lookup_witness :
  cls timeout_handler = OtherException
  /\ printed world_c5 = [JObj [("error", JStr "Script timeout")]]
  /\ status world_c5 = 1.
Proof.
  split; [reflexivity|].
  apply (C5_other_exception_in_lookup
           world_c5 "ig_scraper.py" "name" [] timeout_handler);
    reflexivity.
Defined.

(** ** C6 *)



(** ** C7 *)

(** C7: when the lookup succeeds and the profile is private, the posts
    array of the printed object is empty, whatever the post iterator
    holds, and the run exits with status 0. *)
Theorem C7_private_profile_has_no_posts
    (w : World) (prog arg : string) (rest : list string) (p : Profile) :
  argv w = prog :: arg :: rest ->
  from_username w (lstrip "@" arg) = inr p ->
  is_private p = true ->
  map posts_of (printed w) = [Some []] /\ status w = 0.
Proof.
  intros Ha Hp Hpriv.
  destruct (printed_success w prog arg rest p Ha Hp) as [Hout [Hst _]].
  rewrite Hout, Hst. cbn [map]. rewrite posts_of_success.
  unfold shown_posts. now rewrite Hpriv.
Qed.

Lemma C7_private_profile_has_no_posts_witness :
  is_private profile_c7 = true
  /\ length (get_posts profile_c7) = 5%nat
  /\ map posts_of (printed world_c7) = [Some []]
  /\ status world_c7 = 0.
Proof.
  split; [reflexivity|]. split; [reflexivity|].
  apply (C7_private_profile_has_no_posts
           world_c7 "ig_scraper.py" "name" [] profile_c7);
    reflexivity.
Defined.

(** ** C8 *)

(** C8: a leading "@" on the argument is stripped before the lookup.
    The argument [name] is some "@" characters followed by a user name
    [u] that does not begin with "@"; the runs on "@" ++ [name] and on
    [name] both pass [u] to the library, and agree in everything they
    print and in their exit status.  A name without a leading "@" is
    looked up as itself, with or without the prefix: "@name" and "name"
    are both looked up as "name". *)
Theorem C8_at_prefix_is_stripped
    (lib : string -> exn + Profile) (prog name : string) (rest : list string) :
  (exists n u,
     name = str_repeat "@"%char n ++ u
     /\ String.prefix "@" u = false
     /\ looked_up {| argv := prog :: ("@" ++ name) :: rest;
                     from_username := lib |} = [u]
     /\ looked_up {| argv := prog :: name :: rest; from_username := lib |}
        = [u])
  /\ run {| argv := prog :: ("@" ++ name) :: rest; from_username := lib |}
     = run {| argv := prog :: name :: rest; from_username := lib |}
  /\ (String.prefix "@" name = false ->
      looked_up {| argv := prog :: ("@" ++ name) :: rest;
                   from_username := lib |} = [name]
      /\ looked_up {| argv := prog :: name :: rest; from_username := lib |}
         = [name])
  /\ looked_up {| argv := [prog; "@name"]; from_username := lib |} = ["name"]
  /\ looked_up {| argv := [prog; "name"]; from_username := lib |} = ["name"].
Proof.
  assert (L : forall a r,
             looked_up {| argv := prog :: a :: r; from_username := lib |}
             = [lstrip "@" a]).
  { intros a r.
    set (w := {| argv := prog :: a :: r; from_username := lib |}).
    destruct (lib (lstrip "@" a)) as [e|p] eqn:E.
    - now destruct (printed_failure w prog a r e eq_refl E) as [_ [_ H]].
    - now destruct (printed_success w prog a r p eq_refl E) as [_ [_ H]]. }
  assert (P : String.prefix "@" (lstrip "@" name) = false).
  { destruct (lstrip "@" name) as [|c t] eqn:E; [reflexivity|].
    apply lstrip_head in E.
    destruct (String.prefix "@" (String c t)) eqn:Q; [|reflexivity].
    apply prefix_app in Q. destruct Q as [b Hb]. inversion Hb. congruence. }
  split.
  { destruct (lstrip_split name) as [n Hn].
    exists n, (lstrip "@" name). split; [exact Hn|]. split; [exact P|].
    split; [rewrite L; now rewrite lstrip_at | apply L]. }
  split.
  { set (w1 := {| argv := prog :: ("@" ++ name) :: rest;
                  from_username := lib |}).
    set (w2 := {| argv := prog :: name :: rest; from_username := lib |}).
    destruct (lib (lstrip "@" name)) as [e|p] eqn:E.
    - assert (E1 : from_username w1 (lstrip "@" ("@" ++ name)) = inl e)
        by (rewrite lstrip_at; exact E).
      rewrite (run_failure w1 _ _ _ e eq_refl E1).
      rewrite (run_failure w2 _ _ _ e eq_refl E).
      now rewrite lstrip_at.
    - assert (E1 : from_username w1 (lstrip "@" ("@" ++ name)) = inr p)
        by (rewrite lstrip_at; exact E).
      rewrite (run_success w1 _ _ _ p eq_refl E1).
      rewrite (run_success w2 _ _ _ p eq_refl E).
      now rewrite lstrip_at. }
  split.
  { intros Hname. rewrite !L, lstrip_at.
    destruct name as [|c t]; [now split|].
    assert (Hc : c <> "@"%char).
    { intros ->. apply Bool.diff_true_false. rewrite <- Hname.
      symmetry. apply prefix_app. now exists t. }
    rewrite (lstrip_fixed c t Hc). now split. }
  split; [exact (L "@name" []) | exact (L "name" [])].
Qed.

Lemma C8_at_prefix_is_stripped_witness :
  String.prefix "@" "name" = false
  /\ looked_up (world ["ig_scraper.py"; "@name"] (inl boom)) = ["name"]
  /\ looked_up (world ["ig_scraper.py"; "name"] (inl boom)) = ["name"].
Proof.
  split; [reflexivity|].
  exact (proj1 (proj2 (proj2
           (C8_at_prefix_is_stripped (fun _ => inl boom)
              "ig_scraper.py" "name" [])))
           eq_refl).
Defined.

(** ** C9 *)

(** C9, as stated, fails for a caption that is present but empty: the
    caption truncated to 100 characters is the empty string, while the
    printed title is the placeholder "Post". *)
Lemma C9_counterexample :
  caption post_c9 = Some ""
  /\ map posts_of (printed world_c9) = [Some [post_data post_c9]]
  /\ field "title" (post_data post_c9) = Some (JStr "Post")
  /\ field "title" (post_data post_c9) <> Some (JStr (slice_to 100 "")).
Proof.
  split; [reflexivity|]. split; [reflexivity|].
  split; [reflexivity | discriminate].
Qed.

(** C9 (amended): the [i]-th post of a printed posts array comes from
    the [i]-th post the iterator yielded, and its title is the
    placeholder "Post" when that post's caption is absent or empty, and
    otherwise the first 100 characters of the caption (the whole caption
    when it has no more): a prefix of the caption that ends between two
    characters and counts 100 characters, or as many as the caption
    has. *)
Theorem C9_title_of_printed_post
    (w : World) (prog arg : string) (rest : list string) (p : Profile)
    (v : json) (l : list json) (i : nat) (j : json) :
  argv w = prog :: arg :: rest ->
  from_username w (lstrip "@" arg) = inr p ->
  In v (printed w) ->
  posts_of v = Some l ->
  nth_error l i = Some j ->
  exists post t,
    nth_error (get_posts p) i = Some (inr post)
    /\ field "title" j = Some (JStr t)
    /\ match caption post with
       | None => t = "Post"
       | Some EmptyString => t = "Post"
       | Some c =>
           (exists tl, c = t ++ tl /\ begins_inside_character tl = false)
           /\ char_count t = Nat.min 100 (char_count c)
       end.
Proof.
  intros Ha Hp Hin Hposts Hj.
  destruct (printed_success w prog arg rest p Ha Hp) as [Hout _].
  rewrite Hout in Hin. destruct Hin as [<-|[]].
  rewrite posts_of_success in Hposts. inversion Hposts; subst l; clear Hposts.
  unfold shown_posts in Hj. destruct (is_private p).
  { destruct i; discriminate. }
  unfold kept in Hj. rewrite nth_error_map in Hj.
  destruct (nth_error (firstn 12 (yielded (get_posts p))) i) as [post|] eqn:E;
    [|discriminate].
  cbn [option_map] in Hj. inversion Hj; subst j; clear Hj.
  apply nth_error_firstn_some, nth_error_yielded in E.
  exists post, (title_of post). split; [exact E|].
  split; [cbn; now rewrite title_of_eq|].
  unfold title_of. destruct (caption post) as [[|c s]|]; try reflexivity.
  split; [apply slice_to_prefix | apply slice_to_count].
Qed.

Lemma C9_title_of_printed_post_witness :
  caption post_euro = Some (euros 40)
  /\ exists post t,
       nth_error (get_posts profile_euro) 0 = Some (inr post)
       /\ field "title" (post_data post_euro) = Some (JStr t)
       /\ match caption post with
          | None => t = "Post"
          | Some EmptyString => t = "Post"
          | Some c =>
              (exists tl, c = t ++ tl /\ begins_inside_character tl = false)
              /\ char_count t = Nat.min 100 (char_count c)
          end.
Proof.
  split; [reflexivity|].
  assert (Hout : printed world_euro = [success_object profile_euro]).
  { apply (printed_success world_euro "ig_scraper.py" "name" [] profile_euro);
      reflexivity. }
  assert (Hin : In (success_object profile_euro) (printed world_euro)).
  { rewrite Hout. apply in_eq. }
  exact (C9_title_of_printed_post
           world_euro "ig_scraper.py" "name" [] profile_euro
           (success_object profile_euro) (shown_posts profile_euro) 0%nat
           (post_data post_euro)
           eq_refl eq_refl Hin (posts_of_success profile_euro) eq_refl).
Defined.

(** A caption of forty euro signs has 120 bytes and 40 characters; it
    is shorter than 100 characters and becomes the title whole, while a
    caption of 150 letters is cut to its first 100. *)
Lemma title_counts_characters_not_bytes :
  String.length (euros 40) = 120%nat
  /\ char_count (euros 40) = 40%nat
  /\ field "title" (post_data post_euro) = Some (JStr (euros 40))
  /\ field "title" (post_data post_long)
     = Some (JStr (str_repeat "a"%char 100)).
Proof. repeat split. Qed.

(** ** C10 *)

(** C10: the user name passed to the lookup is the argument without its
    whole run of leading "@" characters: the argument is some number of
    "@" followed by the looked-up name, which does not itself begin with
    "@".  So "@@name" is looked up as "name", and an "@" after the first
    other character stays, as in "@n@me". *)
Theorem C10_every_leading_at_is_stripped
    (lib : string -> exn + Profile) (prog arg : string) (rest : list string) :
  looked_up {| argv := prog :: arg :: rest; from_username := lib |}
    = [lstrip "@" arg]
  /\ (exists n, arg = str_repeat "@"%char n ++ lstrip "@" arg)
  /\ String.prefix "@" (lstrip "@" arg) = false
  /\ looked_up {| argv := [prog; "@@name"]; from_username := lib |} = ["name"]
  /\ looked_up {| argv := [prog; "@n@me"]; from_username := lib |} = ["n@me"].
Proof.
  assert (L : forall a r,
             looked_up {| argv := prog :: a :: r; from_username := lib |}
             = [lstrip "@" a]).
  { intros a r.
    set (w := {| argv := prog :: a :: r; from_username := lib |}).
    destruct (lib (lstrip "@" a)) as [e|p] eqn:E.
    - now destruct (printed_failure w prog a r e eq_refl E) as [_ [_ H]].
    - now destruct (printed_success w prog a r p eq_refl E) as [_ [_ H]]. }
  split; [apply L|]. split; [apply lstrip_split|].
  split; [|split; [exact (L "@@name" []) | exact (L "@n@me" [])]].
  destruct (lstrip "@" arg) as [|c t] eqn:E; [reflexivity|].
  apply lstrip_head in E.
  destruct (String.prefix "@" (String c t)) eqn:P; [|reflexivity].
  apply prefix_app in P. destruct P as [b Hb]. inversion Hb. congruence.
Qed.

End Claims.

(** * Further properties of the program *)

Section Further.

Local Open Scope string_scope.

Lemma lstrip_idem (s : string) : lstrip "@" (lstrip "@" s) = lstrip "@" s.
Proof.
  destruct (lstrip "@" s) as [|c t] eqn:E; [reflexivity|].
  apply lstrip_fixed. exact (lstrip_head s c t E).
Qed.

Lemma lstrip_repeat (n : nat) : lstrip "@" (str_repeat "@"%char n) = "".
Proof. induction n as [|n IH]; [reflexivity | exact IH]. Qed.

Lemma yielded_all (ps : list Post) : yielded (map inr ps) = ps.
Proof. induction ps as [|q ps IH]; simpl; [reflexivity | now rewrite IH]. Qed.

Lemma yielded_app (ps : list Post) (tl : list (exn + Post)) :
  yielded (map inr ps ++ tl)%list = (ps ++ yielded tl)%list.
Proof. induction ps as [|q ps IH]; simpl; [reflexivity | now rewrite IH]. Qed.

(** Where a printed post comes from: position [i] of the output is the
    summary of the post the iterator yielded at its [i]-th pull. *)
Lemma printed_post_origin
    (w : World) (prog arg : string) (rest : list string) (p : Profile)
    (v : json) (l : list json) (i : nat) (j : json) :
  argv w = prog :: arg :: rest ->
  from_username w (lstrip "@" arg) = inr p ->
  In v (printed w) ->
  posts_of v = Some l ->
  nth_error l i = Some j ->
  exists post,
    nth_error (get_posts p) i = Some (inr post) /\ j = post_data post.
Proof.
  intros Ha Hp Hin Hposts Hj.
  destruct (printed_success w prog arg rest p Ha Hp) as [Hout _].
  rewrite Hout in Hin. destruct Hin as [<-|[]].
  rewrite posts_of_success in Hposts. inversion Hposts; subst l; clear Hposts.
  unfold shown_posts in Hj. destruct (is_private p).
  { destruct i; discriminate. }
  unfold kept in Hj. rewrite nth_error_map in Hj.
  destruct (nth_error (firstn 12 (yielded (get_posts p))) i) as [post|] eqn:E;
    [|discriminate].
  cbn [option_map] in Hj. inversion Hj; subst j; clear Hj.
  apply nth_error_firstn_some, nth_error_yielded in E.
  now exists post.
Qed.





Lemma or_str_nonempty (x : option string) (c : ascii) (d : string) :
  exists c' s', or_str x (String c d) = String c' s'.
Proof. destruct x as [[|c' s']|]; simpl; eauto. Qed.

Lemma printed_post_in (w : World) (v : json) (l : list json) (j : json) :
  In v (printed w) ->
  posts_of v = Some l ->
  In j l ->
  exists post, j = post_data post.
Proof.
  intros Hin Hposts Hj.
  destruct (run_cases w) as [Hlt | (prog & arg & rest & Ha & [[p Hp] | [e He]])].
  - unfold printed in Hin. rewrite (run_usage w Hlt) in Hin.
    destruct Hin as [<-|[]]. discriminate.
  - destruct (printed_success w prog arg rest p Ha Hp) as [Hout _].
    rewrite Hout in Hin. destruct Hin as [<-|[]].
    rewrite posts_of_success in Hposts. inversion Hposts; subst l.
    unfold shown_posts in Hj. destruct (is_private p); [destruct Hj|].
    unfold kept in Hj. apply in_map_iff in Hj.
    destruct Hj as [post [Hpost _]]. now exists post.
  - destruct (printed_failure w prog arg rest e Ha He) as [Hout _].
    rewrite Hout in Hin. destruct Hin as [<-|[]].
    rewrite posts_of_error in Hposts. discriminate.
Qed.

(** ** The profile-not-found path *)

(** X1: when the lookup raises the library's profile-not-found exception,
    the run prints one object whose error field is
    "Profile '<name>' does not exist", with the user name as it was
    looked up (leading "@" stripped), and exits with status 1.  The
    exception's own message is not used. *)
Theorem not_found_names_the_stripped_user
    (w : World) (prog arg : string) (rest : list string) (e : exn) :
  argv w = prog :: arg :: rest ->
  from_username w (lstrip "@" arg) = inl e ->
  cls e = ProfileNotExistsException ->
  printed w =
    [JObj [("error",
             JStr ("Profile '" ++ lstrip "@" arg ++ "' does not exist"))]]
  /\ status w = 1.
Proof.
  intros Ha He Hc.
  destruct (printed_failure w prog arg rest e Ha He) as [Hout [Hst _]].
  rewrite Hout, Hst. unfold error_object. now rewrite Hc.
Qed.

Lemma not_found_names_the_stripped_user_witness :
  cls ghost_error = ProfileNotExistsException
  /\ printed world_ghost
     = [JObj [("error", JStr "Profile 'ghost' does not exist")]]
  /\ status world_ghost = 1.
Proof.
  split; [reflexivity|].
  exact (not_found_names_the_stripped_user
           world_ghost "ig_scraper.py" "@ghost" [] ghost_error
           eq_refl eq_refl eq_refl).
Defined.

(** ** How a run ends *)


(** ** The success object *)

(** X3: on success the printed object has the eleven keys of the source in
    the order they are written, each profile field under its key
    (followees under "following", the media count under "posts_count",
    a missing external URL as null), and the posts array last; this
    holds whether or not posts were appended and whether or not the
    iteration failed. *)
Theorem success_object_schema
    (w : World) (prog arg : string) (rest : list string) (p : Profile) :
  argv w = prog :: arg :: rest ->
  from_username w (lstrip "@" arg) = inr p ->
  exists l,
    printed w =
      [JObj [("username", JStr (username p));
             ("full_name", JStr (full_name p));
             ("biography", JStr (biography p));
             ("followers", JInt (followers p));
             ("following", JInt (followees p));
             ("posts_count", JInt (mediacount p));
             ("is_private", JBool (is_private p));
             ("is_verified", JBool (is_verified p));
             ("profile_pic_url", JStr (profile_pic_url p));
             ("external_url",
               match external_url p with
               | Some u => JStr u
               | None => JNull
               end);
             ("posts", JArr l)]].
Proof.
  intros Ha Hp.
  destruct (printed_success w prog arg rest p Ha Hp) as [Hout _].
  exists (shown_posts p). rewrite Hout. reflexivity.
Qed.

Lemma success_object_schema_witness :
  from_username world_c7 (lstrip "@" "name") = inr profile_c7
  /\ exists l,
       printed world_c7 =
         [JObj [("username", JStr "name");
                ("full_name", JStr "A Name");
                ("biography", JStr "bio");
                ("followers", JInt 10);
                ("following", JInt 20);
                ("posts_count", JInt 30);
                ("is_private", JBool true);
                ("is_verified", JBool false);
                ("profile_pic_url", JStr "https://cdn.example/pic");
                ("external_url", JNull);
                ("posts", JArr l)]].
Proof.
  split; [reflexivity|].
  exact (success_object_schema world_c7 "ig_scraper.py" "name" [] profile_c7
           eq_refl eq_refl).
Defined.

(** ** Which posts are printed *)

(** X4: when the profile is public and the iterator yields the posts [ps]
    and then ends, the posts array holds the summaries of the first
    twelve of them (all of them if there are fewer), in the order in
    which they were yielded. *)
Theorem posts_are_the_first_twelve_in_order
    (w : World) (prog arg : string) (rest : list string) (p : Profile)
    (ps : list Post) :
  argv w = prog :: arg :: rest ->
  from_username w (lstrip "@" arg) = inr p ->
  is_private p = false ->
  get_posts p = map inr ps ->
  map posts_of (printed w) = [Some (map post_data (firstn 12 ps))]
  /\ status w = 0.
Proof.
  intros Ha Hp Hpub Hps.
  destruct (printed_success w prog arg rest p Ha Hp) as [Hout [Hst _]].
  rewrite Hout, Hst. cbn [map]. rewrite posts_of_success.
  unfold shown_posts, kept. now rewrite Hpub, Hps, yielded_all.
Qed.

Lemma posts_are_the_first_twelve_in_order_witness :
  get_posts profile_two = map inr [post_a; post_long]
  /\ map posts_of (printed world_two)
     = [Some (map post_data (firstn 12 [post_a; post_long]))]
  /\ status world_two = 0.
Proof.
  split; [reflexivity|].
  exact (posts_are_the_first_twelve_in_order
           world_two "ig_scraper.py" "name" [] profile_two [post_a; post_long]
           eq_refl eq_refl eq_refl eq_refl).
Defined.

(** X5: once the iterator has yielded twelve posts, nothing it would answer
    afterwards changes the output: further posts are dropped, and an
    exception waiting at a later pull is never seen. *)
Theorem answers_after_twelve_posts_are_ignored
    (w : World) (prog arg : string) (rest : list string) (p : Profile)
    (ps : list Post) (tl : list (exn + Post)) :
  argv w = prog :: arg :: rest ->
  from_username w (lstrip "@" arg) = inr p ->
  is_private p = false ->
  get_posts p = (map inr ps ++ tl)%list ->
  (12 <= length ps)%nat ->
  map posts_of (printed w) = [Some (map post_data (firstn 12 ps))]
  /\ status w = 0.
Proof.
  intros Ha Hp Hpub Hps Hlen.
  destruct (printed_success w prog arg rest p Ha Hp) as [Hout [Hst _]].
  rewrite Hout, Hst. cbn [map]. rewrite posts_of_success.
  unfold shown_posts, kept. rewrite Hpub, Hps, yielded_app.
  rewrite firstn_app.
  replace (12 - length ps)%nat with 0%nat by lia.
  cbn [firstn]. now rewrite app_nil_r.
Qed.

Lemma answers_after_twelve_posts_are_ignored_witness :
  get_posts profile_c3 = (map inr twelve_posts ++ many_posts 3)%list
  /\ map posts_of (printed world_c3)
     = [Some (map post_data (firstn 12 twelve_posts))]
  /\ status world_c3 = 0.
Proof.
  split; [reflexivity|].
  exact (answers_after_twelve_posts_are_ignored
           world_c3 "ig_scraper.py" "@name" [] profile_c3
           twelve_posts (many_posts 3)
           eq_refl eq_refl eq_refl eq_refl (le_n 12)).
Defined.

(** ** The fields of a printed post *)

(** X6: every post of a printed posts array has a title that is not the
    empty string and has at most 100 characters. *)
Theorem printed_title_is_short_and_not_empty
    (w : World) (v : json) (l : list json) (j : json) :
  In v (printed w) ->
  posts_of v = Some l ->
  In j l ->
  exists t,
    field "title" j = Some (JStr t)
    /\ t <> ""
    /\ (char_count t <= 100)%nat.
Proof.
  intros Hin Hposts Hj.
  destruct (printed_post_in w v l j Hin Hposts Hj) as [post ->].
  exists (slice_to 100 (or_str (caption post) "Post")).
  split; [reflexivity|].
  split.
  - destruct (or_str_nonempty (caption post) "P"%char "ost") as (c & s & ->).
    apply slice_to_nonempty.
  - rewrite slice_to_count. apply Nat.le_min_l.
Qed.

Lemma printed_title_is_short_and_not_empty_witness :
  char_count (str_repeat "a"%char 150) = 150%nat
  /\ exists t,
       field "title" (post_data post_long) = Some (JStr t)
       /\ t <> ""
       /\ (char_count t <= 100)%nat.
Proof.
  split; [reflexivity|].
  assert (Hout : printed world_long = [success_object profile_long]).
  { apply (printed_success world_long "ig_scraper.py" "name" [] profile_long);
      reflexivity. }
  assert (Hin : In (success_object profile_long) (printed world_long)).
  { rewrite Hout. apply in_eq. }
  exact (printed_title_is_short_and_not_empty
           world_long (success_object profile_long)
           (shown_posts profile_long) (post_data post_long)
           Hin (posts_of_success profile_long) (in_eq _ _)).
Defined.

(** X7: every post of a printed posts array is an object with the nine keys
    of the source in their order, and its "url" is the canonical address
    built from its "id": "https://www.instagram.com/p/<id>/". *)
Theorem printed_post_keys_and_url
    (w : World) (v : json) (l : list json) (j : json) :
  In v (printed w) ->
  posts_of v = Some l ->
  In j l ->
  exists d id,
    j = JObj d
    /\ map fst d = ["id"; "url"; "title"; "thumbnail"; "likes"; "comments";
                    "views"; "is_video"; "upload_date"]
    /\ dict_get "id" d = Some (JStr id)
    /\ dict_get "url" d
       = Some (JStr ("https://www.instagram.com/p/" ++ id ++ "/")).
Proof.
  intros Hin Hposts Hj.
  destruct (printed_post_in w v l j Hin Hposts Hj) as [post ->].
  eexists _, (shortcode post). repeat split.
Qed.

Lemma printed_post_keys_and_url_witness :
  shortcode post_a = "abc"
  /\ exists d id,
       post_data post_a = JObj d
       /\ map fst d = ["id"; "url"; "title"; "thumbnail"; "likes"; "comments";
                       "views"; "is_video"; "upload_date"]
       /\ dict_get "id" d = Some (JStr id)
       /\ dict_get "url" d
          = Some (JStr ("https://www.instagram.com/p/" ++ id ++ "/")).
Proof.
  split; [reflexivity|].
  assert (Hout : printed world_two = [success_object profile_two]).
  { apply (printed_success world_two "ig_scraper.py" "name" [] profile_two);
      reflexivity. }
  assert (Hin : In (success_object profile_two) (printed world_two)).
  { rewrite Hout. apply in_eq. }
  exact (printed_post_keys_and_url
           world_two (success_object profile_two)
           (shown_posts profile_two) (post_data post_a)
           Hin (posts_of_success profile_two) (in_eq _ _)).
Defined.

(** X8: the [i]-th printed post carries the data of the post yielded at the
    [i]-th pull: its thumbnail, like and comment counts and video flag
    are copied; "views" is the view count, and 0 when the post has none
    (never null); "upload_date" is the ISO text of the date, and null
    when the post has no date. *)
Theorem printed_post_copies_the_yielded_post
    (w : World) (prog arg : string) (rest : list string) (p : Profile)
    (v : json) (l : list json) (i : nat) (j : json) :
  argv w = prog :: arg :: rest ->
  from_username w (lstrip "@" arg) = inr p ->
  In v (printed w) ->
  posts_of v = Some l ->
  nth_error l i = Some j ->
  exists post,
    nth_error (get_posts p) i = Some (inr post)
    /\ field "id" j = Some (JStr (shortcode post))
    /\ field "thumbnail" j = Some (JStr (url post))
    /\ field "likes" j = Some (JInt (likes post))
    /\ field "comments" j = Some (JInt (comments post))
    /\ field "is_video" j = Some (JBool (is_video post))
    /\ field "views" j
       = Some (JInt match video_view_count post with
                    | Some n => n
                    | None => 0
                    end)
    /\ field "upload_date" j
       = Some match date_utc post with
              | Some d => JStr (isoformat d)
              | None => JNull
              end.
Proof.
  intros Ha Hp Hin Hposts Hj.
  destruct (printed_post_origin w prog arg rest p v l i j Ha Hp Hin Hposts Hj)
    as [post [Hn ->]].
  exists post. repeat split; try assumption.
  cbn. unfold or_int. now destruct (video_view_count post) as [[| |]|].
Qed.

Lemma printed_post_copies_the_yielded_post_witness :
  nth_error (shown_posts profile_two) 1 = Some (post_data post_long)
  /\ exists post,
       nth_error (get_posts profile_two) 1 = Some (inr post)
       /\ field "id" (post_data post_long) = Some (JStr (shortcode post))
       /\ field "thumbnail" (post_data post_long) = Some (JStr (url post))
       /\ field "likes" (post_data post_long) = Some (JInt (likes post))
       /\ field "comments" (post_data post_long) = Some (JInt (comments post))
       /\ field "is_video" (post_data post_long) = Some (JBool (is_video post))
       /\ field "views" (post_data post_long)
          = Some (JInt match video_view_count post with
                       | Some n => n
                       | None => 0
                       end)
       /\ field "upload_date" (post_data post_long)
          = Some match date_utc post with
                 | Some d => JStr (isoformat d)
                 | None => JNull
                 end.
Proof.
  split; [reflexivity|].
  assert (Hout : printed world_two = [success_object profile_two]).
  { apply (printed_success world_two "ig_scraper.py" "name" [] profile_two);
      reflexivity. }
  assert (Hin : In (success_object profile_two) (printed world_two)).
  { rewrite Hout. apply in_eq. }
  exact (printed_post_copies_the_yielded_post
           world_two "ig_scraper.py" "name" [] profile_two
           (success_object profile_two) (shown_posts profile_two) 1%nat
           (post_data post_long)
           eq_refl eq_refl Hin (posts_of_success profile_two) eq_refl).
Defined.

(** ** The user name that is looked up *)

(** X9: an argument made only of "@" characters (the empty argument
    included) is not rejected: the library is asked, once, for the
    profile with the empty user name. *)
Theorem argument_of_only_at_signs_looks_up_the_empty_name
    (lib : string -> exn + Profile) (prog : string) (n : nat)
    (rest : list string) :
  looked_up {| argv := prog :: str_repeat "@"%char n :: rest;
               from_username := lib |}
  = [""].
Proof.
  set (w := {| argv := prog :: str_repeat "@"%char n :: rest;
               from_username := lib |}).
  rewrite <- (lstrip_repeat n).
  destruct (lib (lstrip "@" (str_repeat "@"%char n))) as [e|p] eqn:E.
  - now destruct (printed_failure w prog _ rest e eq_refl E) as [_ [_ H]].
  - now destruct (printed_success w prog _ rest p eq_refl E) as [_ [_ H]].
Qed.

(** X10: a run depends on its arguments only through the stripped user name:
    the program name and any further arguments are ignored, and giving
    the name already stripped changes nothing. *)
Theorem run_depends_only_on_the_stripped_name
    (lib : string -> exn + Profile) (prog prog' arg : string)
    (rest : list string) :
  run {| argv := prog :: arg :: rest; from_username := lib |}
  = run {| argv := [prog'; lstrip "@" arg]; from_username := lib |}.
Proof.
  set (w1 := {| argv := prog :: arg :: rest; from_username := lib |}).
  set (w2 := {| argv := [prog'; lstrip "@" arg]; from_username := lib |}).
  destruct (lib (lstrip "@" arg)) as [e|p] eqn:E.
  - assert (E2 : from_username w2 (lstrip "@" (lstrip "@" arg)) = inl e)
      by (rewrite lstrip_idem; exact E).
    rewrite (run_failure w1 prog arg rest e eq_refl E).
    rewrite (run_failure w2 prog' _ [] e eq_refl E2).
    now rewrite lstrip_idem.
  - assert (E2 : from_username w2 (lstrip "@" (lstrip "@" arg)) = inr p)
      by (rewrite lstrip_idem; exact E).
    rewrite (run_success w1 prog arg rest p eq_refl E).
    rewrite (run_success w2 prog' _ [] p eq_refl E2).
    now rewrite lstrip_idem.
Qed.

(** ** When the rate-limited object is printed *)

(** X11: the rate-limited object is printed only when the profile lookup
    raised a connection error whose message contains "429": no other
    path of the program produces it. *)
Theorem rate_limited_only_after_connection_429 (w : World) :
  printed w = [rate_limited_error] ->
  exists prog arg rest e,
    argv w = prog :: arg :: rest
    /\ from_username w (lstrip "@" arg) = inl e
    /\ cls e = ConnectionException
    /\ exists a b, str e = a ++ "429" ++ b.
Proof.
  intros H.
  destruct (run_cases w) as [Hlt | (prog & arg & rest & Ha & [[p Hp] | [e He]])].
  - unfold printed in H. rewrite (run_usage w Hlt) in H. discriminate.
  - destruct (printed_success w prog arg rest p Ha Hp) as [Hout _].
    rewrite Hout in H. discriminate.
  - destruct (printed_failure w prog arg rest e Ha He) as [Hout _].
    rewrite Hout in H. unfold error_object in H.
    destruct (cls e) eqn:Hc; try discriminate.
    destruct (str_in "429" (str e)) eqn:E; [|discriminate].
    exists prog, arg, rest, e. repeat split; try assumption.
    now apply str_in_spec.
Qed.

Lemma rate_limited_only_after_connection_429_witness :
  status world_c4_lookup = 1
  /\ exists prog arg rest e,
       argv world_c4_lookup = prog :: arg :: rest
       /\ from_username world_c4_lookup (lstrip "@" arg) = inl e
       /\ cls e = ConnectionException
       /\ exists a b, str e = a ++ "429" ++ b.
Proof.
  split; [reflexivity|].
  apply (rate_limited_only_after_connection_429 world_c4_lookup).
  apply (printed_failure world_c4_lookup "ig_scraper.py" "name" []
           too_many_requests); reflexivity.
Defined.

(** ** The watchdog inside the lookup *)

Lemma timeout_in_lookup_witness :
  from_username world_c5 (lstrip "@" "name") = inl timeout_handler
  /\ printed world_c5 = [JObj [("error", JStr "Script timeout")]]
  /\ status world_c5 = 1.
Proof.
  split; [reflexivity|].
  exact (timeout_in_lookup world_c5 "ig_scraper.py" "name" [] eq_refl eq_refl).
Defined.

End Further.
